(** * homebridge-http-temperature-humidity: the poller and its cache

    A shallow embedding of [src/homebridge-http-temperature-humidity.ts].
    The plugin polls an HTTP endpoint with axios, keeps the last reading
    in [accessoryState] and hands it to HomeKit through two getters and
    through [updateCharacteristic].

    - JavaScript numbers are IEEE 754 binary64 values: [PrimFloat.float].
    - A value of type [any] ([response.data], a thrown value) is a
      [JsValue].
    - [this], the plugin's log and the calls made on the HAP services are
      one explicit [World]; a method is a function from the world to a
      settled promise and the next world.
    - A request is in flight between the call of [axios.get] and the
      moment its promise settles.  Everything the plugin does with a
      settled request happens in one run of the microtask queue, so a
      completion is one atomic step of the model, and the [Settled]
      result of [axios.get] is the step's input. *)

From Stdlib Require Import Floats.PrimFloat.
From Stdlib Require Import String List Bool PeanoNat Lia.
From Stdlib Require Import DecimalString.
Import ListNotations.

#[local] Set Warnings "-inexact-float,-register-all".
#[local] Open Scope string_scope.
#[local] Open Scope list_scope.

(** ** JavaScript values *)

Module Js.

Inductive JsValue : Type :=
| JsUndefined
| JsNull
| JsBoolean (b : bool)
| JsNumber (n : float)
| JsString (s : string)
| JsArray (items : list JsValue)
| JsObject (props : list (string * JsValue)).

(** An [Error] object; only its [message] is ever read. *)
Record JsError : Type := Error { message : string }.

Definition TypeError (msg : string) : JsError := Error msg.

(** The state of a promise once it has settled. *)
Inductive Settled (A : Type) : Type :=
| Fulfilled (a : A)
| Rejected (e : JsError).
Arguments Fulfilled {A} a.
Arguments Rejected {A} e.

(** Own property of a parsed JSON object.  [JSON.parse] keeps one
    value per key, so the first match is the only one. *)
Fixpoint lookup (k : string) (props : list (string * JsValue)) : option JsValue :=
  match props with
  | [] => None
  | (k', v) :: rest => if String.eqb k k' then Some v else lookup k rest
  end.

(** [v.k] for the two property names the plugin reads, [temperature]
    and [humidity]: reading a property of [undefined] or [null] throws
    a [TypeError] (V8's wording); an object answers with its own
    property or [undefined]; booleans, numbers, strings and arrays have
    no property of either name. *)
Definition get_property (v : JsValue) (k : string) : Settled JsValue :=
  match v with
  | JsUndefined =>
      Rejected (TypeError ("Cannot read properties of undefined (reading '" ++ k ++ "')"))
  | JsNull =>
      Rejected (TypeError ("Cannot read properties of null (reading '" ++ k ++ "')"))
  | JsObject props =>
      Fulfilled (match lookup k props with Some x => x | None => JsUndefined end)
  | JsBoolean _ | JsNumber _ | JsString _ | JsArray _ => Fulfilled JsUndefined
  end.

(** Whether [v] converts to a string, as [+] with a string and a
    template literal convert it.  A primitive always does.  A parsed
    JSON object has no callable property, so its conversion reaches
    [Object.prototype.toString] unless the object has a property
    [toString] of its own, which hides it: then neither [valueOf] nor
    [toString] gives a primitive and the conversion throws a
    [TypeError].  An array converts with [join], which converts every
    element. *)
Fixpoint printable (v : JsValue) : bool :=
  match v with
  | JsArray items => forallb printable items
  | JsObject props =>
      match lookup "toString" props with
      | Some _ => false
      | None => true
      end
  | JsUndefined | JsNull | JsBoolean _ | JsNumber _ | JsString _ => true
  end.

(** [ToBoolean] on a number: [+0], [-0] and [NaN] are falsy. *)
Definition number_truthy (n : float) : bool :=
  negb (PrimFloat.eqb n 0%float || negb (PrimFloat.eqb n n)).

(** [a || b] where [a] is a number or missing. *)
Definition or_number (a : option float) (b : float) : float :=
  match a with
  | Some n => if number_truthy n then n else b
  | None => b
  end.

(** [a || b] where [a] is a string or missing: the empty string is falsy. *)
Definition or_string (a : option string) (b : string) : string :=
  match a with
  | Some "" => b
  | Some s => s
  | None => b
  end.

(** [a || b] where [a] is a boolean or missing. *)
Definition or_boolean (a : option bool) (b : bool) : bool :=
  match a with
  | Some true => true
  | Some false => b
  | None => b
  end.

End Js.
Export Js.

(** ** The HTTP client

    [axios] is an npm dependency of the plugin, not part of it.  The
    plugin sees only the promise [axios.get(url)] returns, and reads only
    [response.data] of a fulfilled one. *)

Module Axios.

Record AxiosResponse : Type := { status : nat; data : JsValue }.

(** What came back over the wire.  A body is text; [JsonText v] is a
    text [JSON.parse] accepts, with the value it parses to, and
    [OtherText s] is a text [JSON.parse] throws on. *)
Inductive ResponseBody : Type :=
| JsonText (v : JsValue)
| OtherText (s : string).

Inductive HttpExchange : Type :=
| NetworkError (msg : string)
| HttpResponse (code : nat) (body : ResponseBody).

(** axios' default [validateStatus]: [status >= 200 && status < 300]. *)
Definition validateStatus (code : nat) : bool :=
  Nat.leb 200 code && Nat.ltb code 300.

(** axios' default [transformResponse]: the body goes through
    [JSON.parse] inside a [try]; with the default
    [silentJSONParsing] a parse error is dropped and the text itself
    becomes [data]. *)
Definition transformResponse (body : ResponseBody) : JsValue :=
  match body with
  | JsonText v => v
  | OtherText s => JsString s
  end.

(** [axios.get(url)] with the default configuration, which is how the
    plugin calls it: it rejects on a network error and on a status
    [validateStatus] refuses, and fulfils otherwise. *)
Definition get (x : HttpExchange) : Settled AxiosResponse :=
  match x with
  | NetworkError msg => Rejected (Error msg)
  | HttpResponse code body =>
      if validateStatus code
      then Fulfilled {| status := code; data := transformResponse body |}
      else Rejected (Error ("Request failed with status code "
                            ++ NilZero.string_of_uint (Nat.to_uint code)))
  end.

End Axios.

(** ** The host: homebridge's log and the HAP services *)

Module Host.

Inductive LogLevel : Type := Info | Debug.

(** A log message is built with [+] from string literals and values.
    [Shown v] stands for the string [+] converts [v] to, for a [v] that
    has one. *)
Inductive Piece : Type :=
| Text (s : string)
| Shown (v : JsValue).

(** ['...' + v]: the piece [v] adds to the message, or the [TypeError]
    of the conversion (V8's wording). *)
Definition shown (v : JsValue) : Settled Piece :=
  if printable v
  then Fulfilled (Shown v)
  else Rejected (TypeError "Cannot convert object to primitive value").

Record LogEntry : Type := { level : LogLevel; text : list Piece }.

Inductive Service : Type :=
| AccessoryInformation
| TemperatureSensor
| HumiditySensor.

Inductive Characteristic : Type :=
| Manufacturer
| Model
| SerialNumber
| CurrentTemperature
| CurrentRelativeHumidity.

(** The two bound methods the plugin hands to [onGet]. *)
Inductive Handler : Type :=
| GetCurrentTemperature
| GetCurrentRelativeHumidity.

(** The calls the plugin makes on the host, in the order it makes them. *)
Inductive HostCall : Type :=
| OnGet (s : Service) (c : Characteristic) (h : Handler)
| SetCharacteristic (s : Service) (c : Characteristic) (v : string)
| UpdateCharacteristic (s : Service) (c : Characteristic) (v : JsValue)
| SetInterval (millis : float).

End Host.
Export Host.

(** ** The accessory's configuration: the keys the constructor reads

    [name] and [url] are required; an optional key is [None] when the
    configuration leaves it out. *)

Module AccessoryConfig.

Record t : Type := {
  name : string;
  url : string;
  manufacturer : option string;
  model : option string;
  serial : option string;
  refresh : option float;
  disableHumidity : option bool
}.

End AccessoryConfig.

(** ** [class HttpTemperatureHumidityAccessory] *)

Module Accessory.

(** [accessoryState].  The fields are declared [number]; what is
    assigned to them comes out of [response.data as
    TemperatureAndHumidity], a cast that checks nothing, so at run time
    they hold whatever value the response had there. *)
Record AccessoryState : Type := {
  temperature : JsValue;
  humidity : JsValue
}.

(** The fields of [this].  The three services are fixed objects
    ([Host.Service]) and the logger is the world's [log]. *)
Record Fields : Type := {
  name : string;
  url : string;
  manufacturer : string;
  model : string;
  serial : string;
  disableHumidity : bool;
  refresh_interval : float;
  accessoryState : AccessoryState
}.

(** [this], what the logger has written and what the HAP services were
    asked to do, oldest first. *)
Record World : Type := {
  this : Fields;
  log : list LogEntry;
  calls : list HostCall
}.

(** [new TemperatureAndHumidity(temperature = 0, humidity = 0)]. *)
Definition TemperatureAndHumidity (temperature humidity : option float) : JsValue :=
  JsObject [("temperature", JsNumber (match temperature with Some t => t | None => 0%float end));
            ("humidity", JsNumber (match humidity with Some h => h | None => 0%float end))].

(** *** Methods as state transformers that may throw *)

Definition Async (A : Type) : Type := World -> Settled A * World.

Definition ret {A : Type} (a : A) : Async A :=
  fun w => (Fulfilled a, w).

(** [await p] of a promise that has settled: its value, or its error thrown. *)
Definition await {A : Type} (p : Settled A) : Async A :=
  fun w => (p, w).

(** Sequencing, and [p.then(k)]: [k] runs when [p] is fulfilled, a
    rejection goes past it. *)
Definition bind {A B : Type} (m : Async A) (k : A -> Async B) : Async B :=
  fun w =>
    match m w with
    | (Fulfilled a, w') => k a w'
    | (Rejected e, w') => (Rejected e, w')
    end.

(** [p.catch(h)]: [h] runs when [p] is rejected, and what it returns
    fulfils the new promise. *)
Definition catch {A : Type} (m : Async A) (h : JsError -> Async A) : Async A :=
  fun w =>
    match m w with
    | (Fulfilled a, w') => (Fulfilled a, w')
    | (Rejected e, w') => h e w'
    end.

Declare Scope async_scope.
Delimit Scope async_scope with async.
Bind Scope async_scope with Async.
Notation "x <- m ;; k" := (bind m (fun x => k))
  (at level 61, m at next level, right associativity) : async_scope.
Notation "m ;; k" := (bind m (fun _ => k))
  (at level 61, right associativity) : async_scope.
#[local] Open Scope async_scope.

Definition get_this : Async Fields :=
  fun w => (Fulfilled (this w), w).

(** [this.log(...)] and [this.log.info(...)] write at level info,
    [this.log.debug(...)] at level debug. *)
Definition write_log (l : LogLevel) (msg : list Piece) : Async unit :=
  fun w => (Fulfilled tt,
            {| this := this w;
               log := log w ++ [{| level := l; text := msg |}];
               calls := calls w |}).

Definition log_info : list Piece -> Async unit := write_log Info.
Definition log_debug : list Piece -> Async unit := write_log Debug.

Definition host_call (c : HostCall) : Async unit :=
  fun w => (Fulfilled tt,
            {| this := this w; log := log w; calls := calls w ++ [c] |}).

Definition with_accessoryState (f : Fields) (s : AccessoryState) : Fields :=
  {| name := name f; url := url f; manufacturer := manufacturer f;
     model := model f; serial := serial f;
     disableHumidity := disableHumidity f;
     refresh_interval := refresh_interval f;
     accessoryState := s |}.

(** [this.accessoryState.temperature = v]. *)
Definition set_temperature (v : JsValue) : Async unit :=
  fun w => (Fulfilled tt,
            {| this := with_accessoryState (this w)
                 {| temperature := v;
                    humidity := humidity (accessoryState (this w)) |};
               log := log w; calls := calls w |}).

(** [this.accessoryState.humidity = v]. *)
Definition set_humidity (v : JsValue) : Async unit :=
  fun w => (Fulfilled tt,
            {| this := with_accessoryState (this w)
                 {| temperature := temperature (accessoryState (this w));
                    humidity := v |};
               log := log w; calls := calls w |}).

(** *** The methods of the class *)

(** [callServer]: the local starts as a fresh [TemperatureAndHumidity];
    [await axios.get(this.url).then(...)] either runs the callback, which
    replaces the local by [response.data], or throws axios' error out of
    the method.  [reply] is what [axios.get(this.url)] settled to. *)
Definition callServer (reply : Settled Axios.AxiosResponse) : Async JsValue :=
  let temparatureAndHumidity := TemperatureAndHumidity None None in
  temparatureAndHumidity <-
    (response <- await reply ;;
     ret (Axios.data response)) ;;
  ret temparatureAndHumidity.

(** [updateAllStates].  The [then] callback evaluates the argument of
    [log.debug] first: it reads [temperature] and appends it to the
    string, reads [humidity] and appends it, and either step can throw,
    the read on [null] and [undefined], the conversion on a value
    without one.  Only then does it assign the two fields of
    [accessoryState], reading the properties again.  The [catch]
    callback logs [error.message].  [updated] is the local the closures
    share: [true] at the end of the [then] callback, still [false] after
    the [catch] callback. *)
Definition updateAllStates (reply : Settled Axios.AxiosResponse) : Async bool :=
  let updated := false in
  catch
    (temperatureAndHumidity <- callServer reply ;;
     t <- await (get_property temperatureAndHumidity "temperature") ;;
     shown_t <- await (shown t) ;;
     h <- await (get_property temperatureAndHumidity "humidity") ;;
     shown_h <- await (shown h) ;;
     log_debug [Text "CallServerResponse: Temperature: "; shown_t;
                Text " Humidity: "; shown_h] ;;
     t' <- await (get_property temperatureAndHumidity "temperature") ;;
     set_temperature t' ;;
     h' <- await (get_property temperatureAndHumidity "humidity") ;;
     set_humidity h' ;;
     ret true)
    (fun error =>
       log_info [Text "updateAllStates Error : "; Text (message error)] ;;
       ret updated).

(** The getters build their log line with the same [+].  The cache they
    read holds 0 or what [updateAllStates] has just converted, so in
    every state the accessory reaches the conversion succeeds
    ([cache_converts_to_a_string] below), and the line is [Shown] of the
    field. *)
Definition getCurrentTemperature : Async JsValue :=
  self <- get_this ;;
  let currentTemperature := temperature (accessoryState self) in
  log_info [Text "getCurrentTemperature: "; Shown currentTemperature] ;;
  ret currentTemperature.

Definition getCurrentRelativeHumidity : Async JsValue :=
  self <- get_this ;;
  let currentRelativeHumidity := humidity (accessoryState self) in
  log_info [Text "getCurrentRelativeHumidity: "; Shown currentRelativeHumidity] ;;
  ret currentRelativeHumidity.

Definition identify : Async unit :=
  log_info [Text "Identify!"].

Definition getRefreshIntervalInMillis (self : Fields) : float :=
  PrimFloat.mul (refresh_interval self) 1000%float.

(** [getServices]: [disableHumidity !== true] on a boolean is [negb]. *)
Definition getServices (self : Fields) : list Service :=
  let services := [AccessoryInformation; TemperatureSensor] in
  if negb (disableHumidity self)
  then services ++ [HumiditySensor]
  else services.

(** The callback handed to [setInterval], run when the request of that
    tick has settled: [this.updateAllStates().then(() => {...})].  The
    callback takes no argument: the boolean [updateAllStates] resolves
    to is dropped. *)
Definition onInterval (reply : Settled Axios.AxiosResponse) : Async unit :=
  _ <- updateAllStates reply ;;
  self <- get_this ;;
  host_call (UpdateCharacteristic TemperatureSensor CurrentTemperature
               (temperature (accessoryState self))) ;;
  (if negb (disableHumidity self)
   then host_call (UpdateCharacteristic HumiditySensor CurrentRelativeHumidity
                     (humidity (accessoryState self)))
   else ret tt) ;;
  log_debug [Text "Triggering updateAccessoryState"].

(** The constructor, up to its [return]: the fields of [this] from the
    configuration, the handlers, the information service, the timer.
    [this.updateAllStates()] only sends the first request here; that
    request settles later ([InitialFetch] below). *)
Definition constructor (config : AccessoryConfig.t) : World :=
  let self :=
    {| name := AccessoryConfig.name config;
       url := AccessoryConfig.url config;
       manufacturer :=
         or_string (AccessoryConfig.manufacturer config) "HttpTemperatureHumidity";
       model := or_string (AccessoryConfig.model config) "Default";
       serial := or_string (AccessoryConfig.serial config) "18981898";
       refresh_interval := or_number (AccessoryConfig.refresh config) 30%float;
       disableHumidity := or_boolean (AccessoryConfig.disableHumidity config) false;
       accessoryState := {| temperature := JsNumber 0%float;
                            humidity := JsNumber 0%float |} |} in
  let body : Async unit :=
    host_call (OnGet TemperatureSensor CurrentTemperature GetCurrentTemperature) ;;
    (if negb (disableHumidity self)
     then host_call (OnGet HumiditySensor CurrentRelativeHumidity
                       GetCurrentRelativeHumidity)
     else ret tt) ;;
    host_call (SetCharacteristic AccessoryInformation Manufacturer (manufacturer self)) ;;
    host_call (SetCharacteristic AccessoryInformation Model (model self)) ;;
    host_call (SetCharacteristic AccessoryInformation SerialNumber (serial self)) ;;
    host_call (SetInterval (getRefreshIntervalInMillis self)) ;;
    log_info [Text (name self ++ " finished initializing!")] ;;
    log_debug [Text "Will refresh state every ";
               Shown (JsNumber (refresh_interval self)); Text "sec"] in
  snd (body {| this := self; log := []; calls := [] |}).

(** *** Running the accessory

    After the constructor the only things that happen to the accessory
    are requests settling: the one the constructor sent, and one per
    timer tick. *)
Inductive Event : Type :=
| InitialFetch (reply : Settled Axios.AxiosResponse)
| IntervalFetch (reply : Settled Axios.AxiosResponse).

Definition reply_of (e : Event) : Settled Axios.AxiosResponse :=
  match e with
  | InitialFetch reply => reply
  | IntervalFetch reply => reply
  end.

Definition step (w : World) (e : Event) : World :=
  match e with
  | InitialFetch reply => snd (updateAllStates reply w)
  | IntervalFetch reply => snd (onInterval reply w)
  end.

Definition run (w : World) (es : list Event) : World :=
  fold_left step es w.

End Accessory.
Export Accessory.

(** ** Vocabulary of the specification *)

#[local] Open Scope async_scope.

(** The reading a settled request delivers to [updateAllStates]: the
    [temperature] and [humidity] properties of [response.data] when the
    request was fulfilled, both can be read and both convert to a
    string; and otherwise the error that ends up in the [catch]
    callback. *)
Definition outcome (reply : Settled Axios.AxiosResponse) : Settled AccessoryState :=
  match reply with
  | Rejected e => Rejected e
  | Fulfilled response =>
      match get_property (Axios.data response) "temperature" with
      | Rejected e => Rejected e
      | Fulfilled t =>
          match shown t with
          | Rejected e => Rejected e
          | Fulfilled _ =>
              match get_property (Axios.data response) "humidity" with
              | Rejected e => Rejected e
              | Fulfilled h =>
                  match shown h with
                  | Rejected e => Rejected e
                  | Fulfilled _ => Fulfilled {| temperature := t; humidity := h |}
                  end
              end
          end
      end
  end.

Definition delivered (reply : Settled Axios.AxiosResponse) : option AccessoryState :=
  match outcome reply with
  | Fulfilled r => Some r
  | Rejected _ => None
  end.

Definition succeeded (e : Event) : bool :=
  match delivered (reply_of e) with
  | Some _ => true
  | None => false
  end.

(** The same, said of the response itself and not through
    [get_property] and [lookup].  [property_is d k v]: reading [d.k]
    gives [v], the value the object [d] has under [k], and [undefined]
    when [d] is an object without [k] or no object at all; nothing can
    be read of [null] and [undefined]. *)
Definition property_is (d : JsValue) (k : string) (v : JsValue) : Prop :=
  match d with
  | JsUndefined | JsNull => False
  | JsObject props =>
      In (k, v) props \/ (v = JsUndefined /\ ~ In k (map fst props))
  | JsBoolean _ | JsNumber _ | JsString _ | JsArray _ => v = JsUndefined
  end.

(** What [JSON.parse] returns has one value per key. *)
Definition one_value_per_key (d : JsValue) : Prop :=
  match d with
  | JsObject props => NoDup (map fst props)
  | _ => True
  end.

Definition unique_keys (reply : Settled Axios.AxiosResponse) : Prop :=
  match reply with
  | Fulfilled response => one_value_per_key (Axios.data response)
  | Rejected _ => True
  end.

(** [Delivers reply r]: the request was fulfilled and [r] holds the two
    properties of its data, both with a conversion to a string. *)
Inductive Delivers : Settled Axios.AxiosResponse -> AccessoryState -> Prop :=
| delivers_reading (response : Axios.AxiosResponse) (t h : JsValue) :
    property_is (Axios.data response) "temperature" t ->
    printable t = true ->
    property_is (Axios.data response) "humidity" h ->
    printable h = true ->
    Delivers (Fulfilled response) {| temperature := t; humidity := h |}.

(** [Catches reply error]: [error] is what the [catch] callback of
    [updateAllStates] is called with: the error axios rejected with,
    the error of reading [temperature] of [null] or [undefined], or the
    error of converting the temperature, or else the humidity, to a
    string. *)
Inductive Catches : Settled Axios.AxiosResponse -> JsError -> Prop :=
| catches_rejection (e : JsError) :
    Catches (Rejected e) e
| catches_null (response : Axios.AxiosResponse) :
    Axios.data response = JsNull ->
    Catches (Fulfilled response)
      (TypeError "Cannot read properties of null (reading 'temperature')")
| catches_undefined (response : Axios.AxiosResponse) :
    Axios.data response = JsUndefined ->
    Catches (Fulfilled response)
      (TypeError "Cannot read properties of undefined (reading 'temperature')")
| catches_temperature (response : Axios.AxiosResponse) (t : JsValue) :
    property_is (Axios.data response) "temperature" t ->
    printable t = false ->
    Catches (Fulfilled response)
      (TypeError "Cannot convert object to primitive value")
| catches_humidity (response : Axios.AxiosResponse) (t h : JsValue) :
    property_is (Axios.data response) "temperature" t ->
    printable t = true ->
    property_is (Axios.data response) "humidity" h ->
    printable h = false ->
    Catches (Fulfilled response)
      (TypeError "Cannot convert object to primitive value").

(** The zero-value default of the cache. *)
Definition zero_reading : AccessoryState :=
  {| temperature := JsNumber 0%float; humidity := JsNumber 0%float |}.

(** The reading of the last event of [es] that delivered one, found by
    searching [es] from its end; [zero_reading] when there is none. *)
Definition last_delivered (es : list Event) : AccessoryState :=
  match find succeeded (rev es) with
  | Some e =>
      match delivered (reply_of e) with
      | Some r => r
      | None => zero_reading
      end
  | None => zero_reading
  end.

(** The line [updateAllStates] logs for a caught error. *)
Definition error_entry (e : JsError) : LogEntry :=
  {| level := Info; text := [Text "updateAllStates Error : "; Text (message e)] |}.

(** The line [updateAllStates] logs for a reading. *)
Definition reading_entry (r : AccessoryState) : LogEntry :=
  {| level := Debug;
     text := [Text "CallServerResponse: Temperature: "; Shown (temperature r);
              Text " Humidity: "; Shown (humidity r)] |}.

(** The line the interval callback logs. *)
Definition trigger_entry : LogEntry :=
  {| level := Debug; text := [Text "Triggering updateAccessoryState"] |}.

(** The service a call on the host is made on. *)
Definition service_of (c : HostCall) : option Service :=
  match c with
  | OnGet s _ _ => Some s
  | SetCharacteristic s _ _ => Some s
  | UpdateCharacteristic s _ _ => Some s
  | SetInterval _ => None
  end.

Definition on_humidity (c : HostCall) : bool :=
  match service_of c with
  | Some HumiditySensor => true
  | _ => false
  end.

(** The [updateCharacteristic] calls among [cs]. *)
Definition is_update (c : HostCall) : bool :=
  match c with
  | UpdateCharacteristic _ _ _ => true
  | _ => false
  end.

(** The handlers registered with [onGet] among [cs]. *)
Fixpoint handlers (cs : list HostCall) : list Handler :=
  match cs with
  | [] => []
  | OnGet _ _ h :: rest => h :: handlers rest
  | _ :: rest => handlers rest
  end.

(** The periods of the timers armed with [setInterval] among [cs]. *)
Fixpoint intervals (cs : list HostCall) : list float :=
  match cs with
  | [] => []
  | SetInterval millis :: rest => millis :: intervals rest
  | _ :: rest => intervals rest
  end.

(** The pushes the interval callback makes for the state of [self]. *)
Definition pushes (self : Fields) : list HostCall :=
  UpdateCharacteristic TemperatureSensor CurrentTemperature
    (temperature (accessoryState self))
  :: (if negb (disableHumidity self)
      then [UpdateCharacteristic HumiditySensor CurrentRelativeHumidity
              (humidity (accessoryState self))]
      else []).

(** The configured seconds, with 30 when the key is left out. *)
Definition configured_seconds (config : AccessoryConfig.t) : float :=
  match AccessoryConfig.refresh config with
  | Some r => r
  | None => 30%float
  end.

(** The seconds [config.refresh || 30] gives. *)
Definition effective_seconds (config : AccessoryConfig.t) : float :=
  match AccessoryConfig.refresh config with
  | Some r => if number_truthy r then r else 30%float
  | None => 30%float
  end.

(** ** Configurations and replies used as examples *)

Definition living_room : AccessoryConfig.t :=
  {| AccessoryConfig.name := "Temperature and Humidity";
     AccessoryConfig.url := "http://192.168.178.210/temp/status";
     AccessoryConfig.manufacturer := None;
     AccessoryConfig.model := None;
     AccessoryConfig.serial := None;
     AccessoryConfig.refresh := None;
     AccessoryConfig.disableHumidity := None |}.

Definition with_refresh (r : float) : AccessoryConfig.t :=
  {| AccessoryConfig.name := "Temperature and Humidity";
     AccessoryConfig.url := "http://192.168.178.210/temp/status";
     AccessoryConfig.manufacturer := None;
     AccessoryConfig.model := None;
     AccessoryConfig.serial := None;
     AccessoryConfig.refresh := Some r;
     AccessoryConfig.disableHumidity := None |}.

Definition temperature_only : AccessoryConfig.t :=
  {| AccessoryConfig.name := "Temperature";
     AccessoryConfig.url := "http://192.168.178.210/temp/status";
     AccessoryConfig.manufacturer := None;
     AccessoryConfig.model := None;
     AccessoryConfig.serial := None;
     AccessoryConfig.refresh := None;
     AccessoryConfig.disableHumidity := Some true |}.

(** The response of the readme: [{"temperature": 25.8, "humidity": 38}]. *)
Definition readme_body : Axios.ResponseBody :=
  Axios.JsonText (JsObject [("temperature", JsNumber 25.8%float);
                            ("humidity", JsNumber 38%float)]).

Definition readme_reply : Settled Axios.AxiosResponse :=
  Axios.get (Axios.HttpResponse 200 readme_body).

Definition server_error_reply : Settled Axios.AxiosResponse :=
  Axios.get (Axios.HttpResponse 500 (Axios.OtherText "Internal Server Error")).

Definition unreachable_reply : Settled Axios.AxiosResponse :=
  Axios.get (Axios.NetworkError "connect ECONNREFUSED 192.168.178.210:80").

(** Status 200 with a body that is not JSON. *)
Definition html_reply : Settled Axios.AxiosResponse :=
  Axios.get (Axios.HttpResponse 200 (Axios.OtherText "<html>busy</html>")).

(** ** The host calling back *)

(** The host invoking a handler it was given with [onGet]: the method,
    bound to [this]. *)
Definition invoke (h : Handler) : Async JsValue :=
  match h with
  | GetCurrentTemperature => getCurrentTemperature
  | GetCurrentRelativeHumidity => getCurrentRelativeHumidity
  end.

(** What can happen to the accessory once it is constructed: a request
    settles, or the host calls one of the methods it knows. *)
Inductive Activity : Type :=
| Settles (e : Event)
| HostGetsTemperature
| HostGetsHumidity
| HostIdentifies.

Definition act (w : World) (a : Activity) : World :=
  match a with
  | Settles e => step w e
  | HostGetsTemperature => snd (invoke GetCurrentTemperature w)
  | HostGetsHumidity => snd (invoke GetCurrentRelativeHumidity w)
  | HostIdentifies => snd (identify w)
  end.

Definition session (w : World) (acts : list Activity) : World :=
  fold_left act acts w.

(** The settled requests among [acts], in order. *)
Fixpoint settled (acts : list Activity) : list Event :=
  match acts with
  | [] => []
  | Settles e :: rest => e :: settled rest
  | _ :: rest => settled rest
  end.

(** ** Traces *)

Definition is_interval (e : Event) : bool :=
  match e with
  | IntervalFetch _ => true
  | InitialFetch _ => false
  end.

(** The lines a settled request adds to the log. *)
Definition entries_of (e : Event) : list LogEntry :=
  (match outcome (reply_of e) with
   | Fulfilled r => reading_entry r
   | Rejected err => error_entry err
   end)
  :: (if is_interval e then [trigger_entry] else []).

Definition characteristic_eqb (a b : Characteristic) : bool :=
  match a, b with
  | Manufacturer, Manufacturer
  | Model, Model
  | SerialNumber, SerialNumber
  | CurrentTemperature, CurrentTemperature
  | CurrentRelativeHumidity, CurrentRelativeHumidity => true
  | _, _ => false
  end.

(** The values pushed with [updateCharacteristic] for [c] among [cs],
    oldest first. *)
Fixpoint pushed (c : Characteristic) (cs : list HostCall) : list JsValue :=
  match cs with
  | [] => []
  | UpdateCharacteristic _ c' v :: rest =>
      if characteristic_eqb c c' then v :: pushed c rest else pushed c rest
  | _ :: rest => pushed c rest
  end.

(** The prefixes of [seen ++ es] that end with a tick of [es]. *)
Fixpoint tick_prefixes_from (seen es : list Event) : list (list Event) :=
  match es with
  | [] => []
  | e :: rest =>
      (if is_interval e then [seen ++ [e]] else [])
      ++ tick_prefixes_from (seen ++ [e]) rest
  end.

Definition tick_prefixes (es : list Event) : list (list Event) :=
  tick_prefixes_from [] es.

(** The shapes of the calls the accessory makes on the host: a getter
    on the characteristic of its own service, a string on the
    information service, a value on the characteristic of a sensor, a
    timer. *)
Definition well_wired (c : HostCall) : bool :=
  match c with
  | OnGet TemperatureSensor CurrentTemperature GetCurrentTemperature => true
  | OnGet HumiditySensor CurrentRelativeHumidity GetCurrentRelativeHumidity => true
  | OnGet _ _ _ => false
  | SetCharacteristic AccessoryInformation (Manufacturer | Model | SerialNumber) _ => true
  | SetCharacteristic _ _ _ => false
  | UpdateCharacteristic TemperatureSensor CurrentTemperature _ => true
  | UpdateCharacteristic HumiditySensor CurrentRelativeHumidity _ => true
  | UpdateCharacteristic _ _ _ => false
  | SetInterval _ => true
  end.

(** The field of the cache a characteristic shows. *)
Definition shown_by (c : Characteristic) (s : AccessoryState) : option JsValue :=
  match c with
  | CurrentTemperature => Some (temperature s)
  | CurrentRelativeHumidity => Some (humidity s)
  | _ => None
  end.

(** A configuration with an empty [manufacturer], a [model], and
    [disableHumidity: false]. *)
Definition named (n u : string) : AccessoryConfig.t :=
  {| AccessoryConfig.name := n;
     AccessoryConfig.url := u;
     AccessoryConfig.manufacturer := Some "";
     AccessoryConfig.model := Some "DHT22";
     AccessoryConfig.serial := None;
     AccessoryConfig.refresh := None;
     AccessoryConfig.disableHumidity := Some false |}.

(** Data that is a boolean, a number, a string or an array. *)
Definition not_an_object (d : JsValue) : bool :=
  match d with
  | JsBoolean _ | JsNumber _ | JsString _ | JsArray _ => true
  | JsUndefined | JsNull | JsObject _ => false
  end.

(** [{"temperature": {"toString": null}, "humidity": 38}]: valid JSON
    whose temperature has no conversion to a string. *)
Definition unprintable_data : JsValue :=
  JsObject [("temperature", JsObject [("toString", JsNull)]);
            ("humidity", JsNumber 38%float)].

(** A fulfilled request with [d] as [response.data]. *)
Definition fulfilled_with (d : JsValue) : Settled Axios.AxiosResponse :=
  Fulfilled {| Axios.status := 200; Axios.data := d |}.

(** ** Equations of the methods *)

Lemma callServer_eq (reply : Settled Axios.AxiosResponse) (w : World) :
  callServer reply w =
  (match reply with
   | Fulfilled response => Fulfilled (Axios.data response)
   | Rejected e => Rejected e
   end, w).
Proof. destruct reply; reflexivity. Qed.

Lemma shown_fulfilled (v : JsValue) (p : Piece) :
  shown v = Fulfilled p -> p = Shown v.
Proof.
  unfold shown. destruct (printable v); intros H; [ | discriminate H ].
  injection H as <-. reflexivity.
Qed.

Lemma updateAllStates_eq (reply : Settled Axios.AxiosResponse) (w : World) :
  updateAllStates reply w =
  match outcome reply with
  | Fulfilled r =>
      (Fulfilled true,
       {| this := with_accessoryState (this w) r;
          log := log w ++ [reading_entry r];
          calls := calls w |})
  | Rejected e =>
      (Fulfilled false,
       {| this := this w; log := log w ++ [error_entry e]; calls := calls w |})
  end.
Proof.
  unfold outcome. destruct reply as [[code d] | e]; [ | reflexivity ].
  cbv beta iota zeta delta [updateAllStates catch bind callServer await ret Axios.data].
  destruct (get_property d "temperature") as [t | e]; [ | reflexivity ].
  destruct (shown t) as [shown_t | e] eqn:St; [ | reflexivity ].
  destruct (get_property d "humidity") as [h | e]; [ | reflexivity ].
  destruct (shown h) as [shown_h | e] eqn:Sh; [ | reflexivity ].
  apply shown_fulfilled in St, Sh. subst shown_t shown_h. reflexivity.
Qed.

Lemma onInterval_eq (reply : Settled Axios.AxiosResponse) (w : World) :
  onInterval reply w =
  let w1 := snd (updateAllStates reply w) in
  (Fulfilled tt,
   {| this := this w1;
      log := log w1 ++ [trigger_entry];
      calls := calls w1 ++ pushes (this w1) |}).
Proof.
  unfold onInterval, bind. rewrite updateAllStates_eq.
  unfold pushes, host_call, log_debug, write_log, get_this, ret.
  destruct (outcome reply) as [r | e]; cbn;
    destruct (disableHumidity (this w)); cbn;
    rewrite <- ?(app_assoc (calls w)); reflexivity.
Qed.

(** ** One settled request *)

Lemma step_this (w : World) (e : Event) :
  this (step w e) =
  match delivered (reply_of e) with
  | Some r => with_accessoryState (this w) r
  | None => this w
  end.
Proof.
  destruct e as [reply | reply]; cbn [step reply_of];
    [ | rewrite onInterval_eq; cbn [snd this] ];
    rewrite updateAllStates_eq; unfold delivered;
    destruct (outcome reply); reflexivity.
Qed.

Lemma step_accessoryState (w : World) (e : Event) :
  accessoryState (this (step w e)) =
  match delivered (reply_of e) with
  | Some r => r
  | None => accessoryState (this w)
  end.
Proof.
  rewrite step_this. destruct (delivered (reply_of e)); reflexivity.
Qed.

Lemma step_disableHumidity (w : World) (e : Event) :
  disableHumidity (this (step w e)) = disableHumidity (this w).
Proof.
  rewrite step_this. destruct (delivered (reply_of e)); reflexivity.
Qed.

Lemma step_refresh_interval (w : World) (e : Event) :
  refresh_interval (this (step w e)) = refresh_interval (this w).
Proof.
  rewrite step_this. destruct (delivered (reply_of e)); reflexivity.
Qed.

(** A settled request adds to the calls on the host the pushes of the
    interval callback, and nothing when it is the constructor's request. *)
Lemma step_calls (w : World) (e : Event) :
  calls (step w e) =
  calls w ++ match e with
             | InitialFetch _ => []
             | IntervalFetch _ => pushes (this (step w e))
             end.
Proof.
  destruct e as [reply | reply]; cbn [step].
  - rewrite updateAllStates_eq, app_nil_r.
    destruct (outcome reply); reflexivity.
  - rewrite onInterval_eq; cbn [snd this calls].
    rewrite updateAllStates_eq. destruct (outcome reply); reflexivity.
Qed.

(** ** Sequences of settled requests *)

Lemma handlers_app (cs ds : list HostCall) :
  handlers (cs ++ ds) = handlers cs ++ handlers ds.
Proof.
  induction cs as [| c cs IH]; [ reflexivity | ].
  destruct c; cbn [app handlers]; rewrite IH; reflexivity.
Qed.

Lemma intervals_app (cs ds : list HostCall) :
  intervals (cs ++ ds) = intervals cs ++ intervals ds.
Proof.
  induction cs as [| c cs IH]; [ reflexivity | ].
  destruct c; cbn [app intervals]; rewrite IH; reflexivity.
Qed.

Lemma pushes_handlers (self : Fields) : handlers (pushes self) = [].
Proof. unfold pushes. destruct (disableHumidity self); reflexivity. Qed.

Lemma pushes_intervals (self : Fields) : intervals (pushes self) = [].
Proof. unfold pushes. destruct (disableHumidity self); reflexivity. Qed.

Section Run.

(** The world the requests start to settle in. *)
Variable w : World.

Lemma run_snoc (es : list Event) (e : Event) :
  run w (es ++ [e]) = step (run w es) e.
Proof. unfold run. rewrite fold_left_app. reflexivity. Qed.

Lemma run_disableHumidity (es : list Event) :
  disableHumidity (this (run w es)) = disableHumidity (this w).
Proof.
  induction es as [| e es IH] using rev_ind; [ reflexivity | ].
  rewrite run_snoc, step_disableHumidity. exact IH.
Qed.

Lemma run_refresh_interval (es : list Event) :
  refresh_interval (this (run w es)) = refresh_interval (this w).
Proof.
  induction es as [| e es IH] using rev_ind; [ reflexivity | ].
  rewrite run_snoc, step_refresh_interval. exact IH.
Qed.

(** The cache after [es], whatever it was before. *)
Lemma run_accessoryState (es : list Event) :
  accessoryState (this (run w es)) =
  match find succeeded (rev es) with
  | Some e =>
      match delivered (reply_of e) with
      | Some r => r
      | None => zero_reading
      end
  | None => accessoryState (this w)
  end.
Proof.
  induction es as [| e es IH] using rev_ind; [ reflexivity | ].
  rewrite run_snoc, step_accessoryState, rev_app_distr.
  cbn [rev app find]. unfold succeeded at 1.
  destruct (delivered (reply_of e)) as [r |] eqn:D;
    [ rewrite D; reflexivity | exact IH ].
Qed.

(** No settled request registers a handler or arms a timer. *)
Lemma run_handlers (es : list Event) :
  handlers (calls (run w es)) = handlers (calls w).
Proof.
  induction es as [| e es IH] using rev_ind; [ reflexivity | ].
  rewrite run_snoc, step_calls, handlers_app, IH.
  destruct e; [ | rewrite pushes_handlers ]; apply app_nil_r.
Qed.

Lemma run_intervals (es : list Event) :
  intervals (calls (run w es)) = intervals (calls w).
Proof.
  induction es as [| e es IH] using rev_ind; [ reflexivity | ].
  rewrite run_snoc, step_calls, intervals_app, IH.
  destruct e; [ | rewrite pushes_intervals ]; apply app_nil_r.
Qed.

(** With humidity disabled no call of a settled request is on the
    humidity service. *)
Lemma run_on_humidity (es : list Event) :
  disableHumidity (this w) = true ->
  filter on_humidity (calls (run w es)) = filter on_humidity (calls w).
Proof.
  intros D. induction es as [| e es IH] using rev_ind; [ reflexivity | ].
  rewrite run_snoc, step_calls, filter_app, IH.
  destruct e as [reply | reply]; [ apply app_nil_r | ].
  unfold pushes. rewrite step_disableHumidity, run_disableHumidity, D.
  apply app_nil_r.
Qed.

End Run.

(** The constructor's effects on the host, by whether humidity is disabled. *)
Lemma constructor_calls (config : AccessoryConfig.t) :
  let self := this (constructor config) in
  calls (constructor config) =
  OnGet TemperatureSensor CurrentTemperature GetCurrentTemperature
  :: (if negb (disableHumidity self)
      then [OnGet HumiditySensor CurrentRelativeHumidity GetCurrentRelativeHumidity]
      else [])
  ++ [SetCharacteristic AccessoryInformation Manufacturer (manufacturer self);
      SetCharacteristic AccessoryInformation Model (model self);
      SetCharacteristic AccessoryInformation SerialNumber (serial self);
      SetInterval (getRefreshIntervalInMillis self)].
Proof.
  destruct config as [n u ma mo se re [[|]|]]; reflexivity.
Qed.


(** What a getter answers and where it leaves the world. *)
Lemma getCurrentTemperature_eq (w : World) :
  getCurrentTemperature w =
  (Fulfilled (temperature (accessoryState (this w))),
   {| this := this w;
      log := log w ++ [{| level := Info;
                          text := [Text "getCurrentTemperature: ";
                                   Shown (temperature (accessoryState (this w)))] |}];
      calls := calls w |}).
Proof. reflexivity. Qed.

Lemma getCurrentRelativeHumidity_eq (w : World) :
  getCurrentRelativeHumidity w =
  (Fulfilled (humidity (accessoryState (this w))),
   {| this := this w;
      log := log w ++ [{| level := Info;
                          text := [Text "getCurrentRelativeHumidity: ";
                                   Shown (humidity (accessoryState (this w)))] |}];
      calls := calls w |}).
Proof. reflexivity. Qed.

(** A tick whose request delivers no reading: the world afterwards. *)
Lemma failed_tick (w : World) (reply : Settled Axios.AxiosResponse) (e : JsError) :
  outcome reply = Rejected e ->
  step w (IntervalFetch reply) =
  {| this := this w;
     log := log w ++ [error_entry e; trigger_entry];
     calls := calls w ++ pushes (this w) |}.
Proof.
  intros H. cbn [step]. rewrite onInterval_eq, updateAllStates_eq, H.
  cbn. rewrite <- app_assoc. reflexivity.
Qed.

(** The fields of [this] when the constructor returns. *)
Lemma constructor_this (config : AccessoryConfig.t) :
  this (constructor config) =
  {| name := AccessoryConfig.name config;
     url := AccessoryConfig.url config;
     manufacturer :=
       or_string (AccessoryConfig.manufacturer config) "HttpTemperatureHumidity";
     model := or_string (AccessoryConfig.model config) "Default";
     serial := or_string (AccessoryConfig.serial config) "18981898";
     disableHumidity := or_boolean (AccessoryConfig.disableHumidity config) false;
     refresh_interval := or_number (AccessoryConfig.refresh config) 30%float;
     accessoryState := zero_reading |}.
Proof.
  destruct config as [n u ma mo se re [[|]|]]; reflexivity.
Qed.

(** ** What a settled request delivers, said of the response *)

Lemma lookup_In (k : string) (props : list (string * JsValue)) (v : JsValue) :
  lookup k props = Some v -> In (k, v) props.
Proof.
  induction props as [| [k' x] props IH]; cbn [lookup]; [ discriminate | ].
  destruct (String.eqb_spec k k') as [-> | N]; intros H.
  - injection H as ->. left. reflexivity.
  - right. exact (IH H).
Qed.

Lemma lookup_None (k : string) (props : list (string * JsValue)) :
  lookup k props = None -> ~ In k (map fst props).
Proof.
  induction props as [| [k' x] props IH]; cbn [lookup map fst]; [ intros _ [] | ].
  destruct (String.eqb_spec k k') as [-> | N]; [ discriminate | ].
  intros H [E | I]; [ exact (N (eq_sym E)) | exact (IH H I) ].
Qed.

Lemma In_lookup (k : string) (props : list (string * JsValue)) (v : JsValue) :
  NoDup (map fst props) -> In (k, v) props -> lookup k props = Some v.
Proof.
  induction props as [| [k' x] props IH]; cbn [lookup map fst]; [ intros _ [] | ].
  intros U [E | I]; inversion U as [| ? ? Hk U']; subst.
  - injection E as -> ->. rewrite String.eqb_refl. reflexivity.
  - destruct (String.eqb_spec k k') as [-> | N]; [ | exact (IH U' I) ].
    exfalso. apply Hk. exact (in_map fst _ _ I).
Qed.

Lemma not_In_lookup (k : string) (props : list (string * JsValue)) :
  ~ In k (map fst props) -> lookup k props = None.
Proof.
  induction props as [| [k' x] props IH]; cbn [lookup map fst]; [ reflexivity | ].
  intros H. destruct (String.eqb_spec k k') as [-> | N].
  - exfalso. apply H. left. reflexivity.
  - apply IH. intros I. apply H. right. exact I.
Qed.

Lemma get_property_is (d : JsValue) (k : string) (v : JsValue) :
  get_property d k = Fulfilled v -> property_is d k v.
Proof.
  destruct d; cbn [get_property property_is]; intros H;
    try discriminate H; try (injection H as <-; reflexivity).
  injection H as <-. destruct (lookup k props) as [x |] eqn:L.
  - left. exact (lookup_In _ _ _ L).
  - right. split; [ reflexivity | exact (lookup_None _ _ L) ].
Qed.

Lemma property_is_get (d : JsValue) (k : string) (v : JsValue) :
  one_value_per_key d -> property_is d k v -> get_property d k = Fulfilled v.
Proof.
  destruct d; cbn [get_property property_is one_value_per_key]; intros U H;
    try contradiction; try (rewrite H; reflexivity).
  destruct H as [I | [-> N]].
  - rewrite (In_lookup _ _ _ U I). reflexivity.
  - rewrite (not_In_lookup _ _ N). reflexivity.
Qed.

Lemma shown_printable (v : JsValue) :
  shown v = if printable v
            then Fulfilled (Shown v)
            else Rejected (TypeError "Cannot convert object to primitive value").
Proof. reflexivity. Qed.

Lemma outcome_delivers (reply : Settled Axios.AxiosResponse) (r : AccessoryState) :
  outcome reply = Fulfilled r -> Delivers reply r.
Proof.
  unfold outcome. destruct reply as [response | e]; [ | discriminate ].
  destruct (get_property (Axios.data response) "temperature") as [t | e] eqn:T;
    [ | discriminate ].
  rewrite shown_printable. destruct (printable t) eqn:Pt; [ | discriminate ].
  destruct (get_property (Axios.data response) "humidity") as [h | e] eqn:H;
    [ | discriminate ].
  rewrite shown_printable. destruct (printable h) eqn:Ph; [ | discriminate ].
  intros E. injection E as <-.
  apply delivers_reading; auto using get_property_is.
Qed.

Lemma outcome_catches (reply : Settled Axios.AxiosResponse) (error : JsError) :
  outcome reply = Rejected error -> Catches reply error.
Proof.
  unfold outcome. destruct reply as [response | e].
  2:{ intros E. injection E as <-. apply catches_rejection. }
  destruct (get_property (Axios.data response) "temperature") as [t | e] eqn:T.
  - rewrite shown_printable. destruct (printable t) eqn:Pt.
    + destruct (get_property (Axios.data response) "humidity") as [h | e] eqn:H.
      * rewrite shown_printable. destruct (printable h) eqn:Ph; [ discriminate | ].
        intros E. injection E as <-.
        apply (catches_humidity response t h); auto using get_property_is.
      * destruct (Axios.data response); discriminate.
    + intros E. injection E as <-.
      apply (catches_temperature response t); auto using get_property_is.
  - intros E. injection E as <-.
    destruct (Axios.data response) eqn:D; try discriminate T;
      cbn [get_property] in T; injection T as <-.
    + apply catches_undefined. exact D.
    + apply catches_null. exact D.
Qed.

Lemma delivers_outcome (reply : Settled Axios.AxiosResponse) (r : AccessoryState) :
  unique_keys reply -> Delivers reply r -> outcome reply = Fulfilled r.
Proof.
  intros U D. destruct D as [response t h Ht Pt Hh Ph]. cbn [unique_keys] in U.
  unfold outcome.
  rewrite (property_is_get _ _ _ U Ht), shown_printable, Pt.
  rewrite (property_is_get _ _ _ U Hh), shown_printable, Ph. reflexivity.
Qed.

Lemma catches_outcome (reply : Settled Axios.AxiosResponse) (error : JsError) :
  unique_keys reply -> Catches reply error -> outcome reply = Rejected error.
Proof.
  intros U C.
  destruct C as [e | response D | response D | response t Ht Pt
                | response t h Ht Pt Hh Ph]; cbn [unique_keys] in U; unfold outcome.
  - reflexivity.
  - rewrite D. reflexivity.
  - rewrite D. reflexivity.
  - rewrite (property_is_get _ _ _ U Ht), shown_printable, Pt. reflexivity.
  - rewrite (property_is_get _ _ _ U Ht), shown_printable, Pt.
    rewrite (property_is_get _ _ _ U Hh), shown_printable, Ph. reflexivity.
Qed.

Lemma delivered_printable (reply : Settled Axios.AxiosResponse) (r : AccessoryState) :
  delivered reply = Some r ->
  printable (temperature r) = true /\ printable (humidity r) = true.
Proof.
  unfold delivered. destruct (outcome reply) as [r' |] eqn:O; [ | discriminate ].
  intros E. injection E as <-.
  destruct (outcome_delivers _ _ O). split; assumption.
Qed.

(** What the cache holds converts to a string, in every state the
    accessory reaches. *)
Lemma cache_converts_to_a_string (config : AccessoryConfig.t) (es : list Event) :
  let s := accessoryState (this (run (constructor config) es)) in
  printable (temperature s) = true /\ printable (humidity s) = true.
Proof.
  cbn zeta. rewrite run_accessoryState, constructor_this.
  destruct (find succeeded (rev es)) as [e |]; [ | split; reflexivity ].
  destruct (delivered (reply_of e)) as [r |] eqn:D; [ | split; reflexivity ].
  exact (delivered_printable _ _ D).
Qed.

(** ** The cache *)

(** C1, the claim after the readme's reading and then a response with
    status 200 whose body is not JSON: nothing was parsed, and the cache
    holds [undefined] twice, which is neither the reading parsed before
    nor the zero default. *)
Lemma non_json_response_overwrites_the_cache :
  let w := run (constructor living_room)
             [InitialFetch readme_reply; IntervalFetch html_reply] in
  accessoryState (this w) = {| temperature := JsUndefined; humidity := JsUndefined |}
  /\ accessoryState (this w)
     <> {| temperature := JsNumber 25.8%float; humidity := JsNumber 38%float |}
  /\ accessoryState (this w) <> zero_reading.
Proof.
  cbn zeta.
  assert (E : accessoryState
                (this (run (constructor living_room)
                         [InitialFetch readme_reply; IntervalFetch html_reply]))
              = {| temperature := JsUndefined; humidity := JsUndefined |})
    by reflexivity.
  rewrite E. repeat split; discriminate.
Qed.

(** C1, amended.  Whatever requests have settled since the constructor,
    in whatever order, [accessoryState] is the reading of the last one
    that delivered a reading, and [{temperature: 0, humidity: 0}] when
    none did.  A request delivers a reading when it was fulfilled, its
    data is not [null] or [undefined] and the [temperature] and the
    [humidity] of the data convert to a string; its reading is these
    two properties as they are, [undefined] for one the data lacks,
    numbers or not.  A request that settles next replaces both fields
    by its reading when it delivers one; otherwise an error is caught
    and [this] stays as it is.  Both fields always convert to a
    string. *)
Theorem cache_holds_last_delivered_reading
    (config : AccessoryConfig.t) (es : list Event) :
  let w := run (constructor config) es in
  accessoryState (this w) = last_delivered es
  /\ (forall e,
        accessoryState (this (step w e)) =
        match delivered (reply_of e) with
        | Some r => r
        | None => accessoryState (this w)
        end)
  /\ (forall e, succeeded e = false -> this (step w e) = this w)
  /\ (forall reply r, delivered reply = Some r -> Delivers reply r)
  /\ (forall reply r,
        unique_keys reply -> Delivers reply r -> delivered reply = Some r)
  /\ (forall reply, delivered reply = None -> exists error, Catches reply error)
  /\ printable (temperature (accessoryState (this w))) = true
  /\ printable (humidity (accessoryState (this w))) = true.
Proof.
  cbn zeta. repeat apply conj.
  - rewrite run_accessoryState, constructor_this. unfold last_delivered.
    destruct (find succeeded (rev es)); reflexivity.
  - intros e. apply step_accessoryState.
  - intros e H. rewrite step_this. unfold succeeded in H.
    destruct (delivered (reply_of e)); [ discriminate | reflexivity ].
  - intros reply r. unfold delivered.
    destruct (outcome reply) as [r' |] eqn:O; [ | discriminate ].
    intros E. injection E as <-. exact (outcome_delivers _ _ O).
  - intros reply r U D. unfold delivered.
    rewrite (delivers_outcome _ _ U D). reflexivity.
  - intros reply. unfold delivered.
    destruct (outcome reply) as [r |error] eqn:O; [ discriminate | ].
    intros _. exists error. exact (outcome_catches _ _ O).
  - exact (proj1 (cache_converts_to_a_string config es)).
  - exact (proj2 (cache_converts_to_a_string config es)).
Qed.

(** C2, at a tick that fails after a first reading: the request of the
    tick gets status 500.  The cache is as before and the log has gained
    the error line (and the callback's debug line), but the interval
    callback has pushed the cached temperature and humidity to the host
    all the same. *)
Theorem failed_tick_still_pushes :
  let w := run (constructor living_room) [InitialFetch readme_reply] in
  let w' := step w (IntervalFetch server_error_reply) in
  this w' = this w
  /\ log w' = log w ++ [error_entry (Error "Request failed with status code 500");
                        trigger_entry]
  /\ calls w' = calls w ++
       [UpdateCharacteristic TemperatureSensor CurrentTemperature (JsNumber 25.8%float);
        UpdateCharacteristic HumiditySensor CurrentRelativeHumidity (JsNumber 38%float)]
  /\ filter is_update (calls w) = [].
Proof.
  cbn zeta.
  rewrite (failed_tick _ server_error_reply
             (Error "Request failed with status code 500") eq_refl).
  repeat split.
Qed.

(** ** The fetcher *)

(** C3, the claim at a response with status 200 whose body is not JSON:
    [callServer] is fulfilled with the text of the body,
    [updateAllStates] resolves to [true], and both fields of the cache
    are [undefined] afterwards. *)
Lemma status_200_without_json_is_no_error :
  let w := constructor living_room in
  callServer html_reply w = (Fulfilled (JsString "<html>busy</html>"), w)
  /\ fst (updateAllStates html_reply w) = Fulfilled true
  /\ accessoryState (this (snd (updateAllStates html_reply w))) =
     {| temperature := JsUndefined; humidity := JsUndefined |}.
Proof. repeat split. Qed.

(** C3, amended.  [callServer] changes nothing in the accessory and
    rejects exactly when the promise of [axios.get] does, with the same
    error; fulfilled, it returns [response.data] unchecked.  With axios'
    defaults that is: an error on a network error and on a status
    outside 200..299, and a success for every status in 200..299
    whatever the body, a body that is not JSON coming out as the string
    of its text. *)
Theorem callServer_rejects_iff_axios_rejects (x : Axios.HttpExchange) (w : World) :
  (forall reply,
      snd (callServer reply w) = w
      /\ ((exists e, fst (callServer reply w) = Rejected e) <->
          (exists e, reply = Rejected e))
      /\ (forall response, reply = Fulfilled response ->
            fst (callServer reply w) = Fulfilled (Axios.data response)))
  /\ ((exists e, fst (callServer (Axios.get x) w) = Rejected e) <->
      match x with
      | Axios.NetworkError _ => True
      | Axios.HttpResponse code _ => ~ (200 <= code /\ code < 300)%nat
      end)
  /\ match x with
     | Axios.NetworkError msg =>
         fst (callServer (Axios.get x) w) = Rejected (Error msg)
     | Axios.HttpResponse code body =>
         (200 <= code /\ code < 300)%nat ->
         fst (callServer (Axios.get x) w) = Fulfilled (Axios.transformResponse body)
     end.
Proof.
  split; [ | rewrite callServer_eq; cbn [fst] ].
  - intros reply. rewrite callServer_eq. cbn [fst snd].
    split; [ reflexivity | ]. split.
    + destruct reply as [response | e]; split; intros [e' H];
        try discriminate H; exists e; reflexivity.
    + intros response ->. reflexivity.
  - destruct x as [msg | code body]; cbn [Axios.get].
    + split; [ | reflexivity ].
      split; [ trivial | intros _; exists (Error msg); reflexivity ].
    + unfold Axios.validateStatus.
      destruct (Nat.leb_spec 200 code) as [L | L];
        destruct (Nat.ltb_spec code 300) as [U | U]; cbn [andb].
      * split; [ | reflexivity ].
        split; [ intros [e H]; discriminate H | intros H; exfalso; apply H; lia ].
      * split; [ | intros [_ H]; exfalso; lia ].
        split; [ intros _ [_ H]; lia | intros _; eexists; reflexivity ].
      * split; [ | intros [H _]; exfalso; lia ].
        split; [ intros _ [H _]; lia | intros _; eexists; reflexivity ].
      * split; [ | intros [H _]; exfalso; lia ].
        split; [ intros _ [H _]; lia | intros _; eexists; reflexivity ].
Qed.

(** C4.  When the response is an object whose [temperature] is the
    number [t] and whose [humidity] is the number [h], then after the
    request has settled, be it the constructor's or a tick's,
    [getCurrentTemperature] returns [t] and [getCurrentRelativeHumidity]
    called after it returns [h], the very numbers of the response. *)
Theorem fetch_then_read_round_trip
    (w : World) (e : Event) (response : Axios.AxiosResponse)
    (props : list (string * JsValue)) (t h : float) :
  reply_of e = Fulfilled response ->
  Axios.data response = JsObject props ->
  lookup "temperature" props = Some (JsNumber t) ->
  lookup "humidity" props = Some (JsNumber h) ->
  let w1 := step w e in
  let w2 := snd (getCurrentTemperature w1) in
  fst (getCurrentTemperature w1) = Fulfilled (JsNumber t)
  /\ fst (getCurrentRelativeHumidity w2) = Fulfilled (JsNumber h).
Proof.
  intros Hreply Hdata Ht Hh. cbn zeta.
  rewrite !getCurrentTemperature_eq, getCurrentRelativeHumidity_eq.
  cbn [fst snd this]. rewrite step_accessoryState.
  unfold delivered, outcome. rewrite Hreply, Hdata.
  cbn [get_property]. rewrite Ht, Hh. split; reflexivity.
Qed.

Lemma fetch_then_read_round_trip_witness :
  let w1 := step (constructor living_room) (IntervalFetch readme_reply) in
  let w2 := snd (getCurrentTemperature w1) in
  fst (getCurrentTemperature w1) = Fulfilled (JsNumber 25.8%float)
  /\ fst (getCurrentRelativeHumidity w2) = Fulfilled (JsNumber 38%float).
Proof.
  apply (fetch_then_read_round_trip (constructor living_room)
           (IntervalFetch readme_reply)
           {| Axios.status := 200;
              Axios.data := JsObject [("temperature", JsNumber 25.8%float);
                                      ("humidity", JsNumber 38%float)] |}
           [("temperature", JsNumber 25.8%float); ("humidity", JsNumber 38%float)]);
    reflexivity.
Defined.



(** ** The polling period *)

Lemma float_neq (a b : float) :
  PrimFloat.eqb a a = true -> PrimFloat.eqb a b = false -> a <> b.
Proof. intros Ha Hab E. rewrite <- E, Ha in Hab. discriminate Hab. Qed.

(** C6, the claim at [refresh: 0]: the configured value times 1000 is 0,
    and the period is 30000 ms. *)
Lemma refresh_zero_is_not_zero_period :
  let self := this (constructor (with_refresh 0%float)) in
  PrimFloat.mul (configured_seconds (with_refresh 0%float)) 1000%float = 0%float
  /\ getRefreshIntervalInMillis self = 30000%float
  /\ getRefreshIntervalInMillis self
     <> PrimFloat.mul (configured_seconds (with_refresh 0%float)) 1000%float.
Proof.
  cbn zeta. split; [ reflexivity | ]. split; [ reflexivity | ].
  apply float_neq; reflexivity.
Qed.

(** C6, amended.  The period of the one timer the accessory arms, and
    what [getRefreshIntervalInMillis] returns at any later time, is 1000
    times the configured [refresh] when that is a number other than 0
    and [NaN], and 1000 times 30 when [refresh] is left out, 0 or [NaN]:
    30000 ms without [refresh], 5000 ms for [refresh: 5]. *)
Theorem polling_period (config : AccessoryConfig.t) (es : list Event) :
  let w := run (constructor config) es in
  let period := PrimFloat.mul (effective_seconds config) 1000%float in
  getRefreshIntervalInMillis (this w) = period
  /\ intervals (calls w) = [period]
  /\ (AccessoryConfig.refresh config = None -> period = 30000%float)
  /\ (AccessoryConfig.refresh config = Some 5%float -> period = 5000%float).
Proof.
  cbn zeta.
  assert (R : refresh_interval (this (constructor config)) = effective_seconds config).
  { rewrite constructor_this. reflexivity. }
  repeat split.
  - unfold getRefreshIntervalInMillis. rewrite run_refresh_interval, R. reflexivity.
  - rewrite run_intervals, constructor_calls. cbn zeta.
    unfold getRefreshIntervalInMillis. rewrite R.
    destruct (disableHumidity (this (constructor config))); reflexivity.
  - intros H. unfold effective_seconds. rewrite H. reflexivity.
  - intros H. unfold effective_seconds. rewrite H. reflexivity.
Qed.

(** C9, the claim at [refresh: 0.5] and at [refresh: -1]: both values
    are truthy, so neither is replaced by the default, and the periods
    are 500 ms and -1000 ms, below 1000 ms. *)
Lemma period_below_one_second :
  number_truthy 0.5%float = true
  /\ getRefreshIntervalInMillis (this (constructor (with_refresh 0.5%float))) = 500%float
  /\ PrimFloat.ltb 500%float 1000%float = true
  /\ number_truthy (-1)%float = true
  /\ getRefreshIntervalInMillis (this (constructor (with_refresh (-1)%float))) = (-1000)%float
  /\ PrimFloat.ltb (-1000)%float 1000%float = true.
Proof. repeat split. Qed.

(** C9, amended.  A [refresh] that is present is replaced by the
    30-second default exactly when it is falsy (0, -0 or [NaN]), which
    gives a period of 30000 ms and not 0; any other number is taken as it
    is and multiplied by 1000, with no lower bound. *)
Theorem falsy_refresh_is_the_default (config : AccessoryConfig.t) (r : float) :
  AccessoryConfig.refresh config = Some r ->
  let self := this (constructor config) in
  if number_truthy r
  then refresh_interval self = r
       /\ getRefreshIntervalInMillis self = PrimFloat.mul r 1000%float
  else refresh_interval self = 30%float
       /\ getRefreshIntervalInMillis self = 30000%float.
Proof.
  intros H. cbn zeta. unfold getRefreshIntervalInMillis.
  rewrite constructor_this. cbn [refresh_interval]. rewrite H.
  unfold or_number. destruct (number_truthy r); split; reflexivity.
Qed.

Lemma falsy_refresh_is_the_default_witness :
  refresh_interval (this (constructor (with_refresh 0%float))) = 30%float
  /\ getRefreshIntervalInMillis (this (constructor (with_refresh 0%float))) = 30000%float.
Proof.
  exact (falsy_refresh_is_the_default (with_refresh 0%float) 0%float eq_refl).
Defined.

(** ** Humidity disabled *)

(** C7.  With [disableHumidity: true], after any requests have settled:
    [getServices] returns the information and the temperature service
    only, the one handler registered is the temperature getter, no call
    made on the host is on the humidity service, and a request that
    delivers a reading still puts it in the cache, humidity included. *)
Theorem disabled_humidity_is_cached_but_not_exposed
    (config : AccessoryConfig.t) (es : list Event) :
  AccessoryConfig.disableHumidity config = Some true ->
  let w := run (constructor config) es in
  getServices (this w) = [AccessoryInformation; TemperatureSensor]
  /\ handlers (calls w) = [GetCurrentTemperature]
  /\ filter on_humidity (calls w) = []
  /\ (forall e r,
        unique_keys (reply_of e) -> Delivers (reply_of e) r ->
        humidity (accessoryState (this (step w e))) = humidity r
        /\ filter on_humidity (calls (step w e)) = []).
Proof.
  intros H. cbn zeta.
  assert (D : disableHumidity (this (constructor config)) = true).
  { rewrite constructor_this. cbn [disableHumidity]. rewrite H. reflexivity. }
  repeat apply conj.
  - unfold getServices. rewrite run_disableHumidity, D. reflexivity.
  - rewrite run_handlers, constructor_calls. cbn zeta. rewrite D. reflexivity.
  - rewrite (run_on_humidity _ _ D), constructor_calls. cbn zeta. rewrite D.
    reflexivity.
  - intros e r U R. split.
    + rewrite step_accessoryState. unfold delivered.
      rewrite (delivers_outcome _ _ U R). reflexivity.
    + rewrite <- run_snoc, (run_on_humidity _ _ D), constructor_calls.
      cbn zeta. rewrite D. reflexivity.
Qed.

Lemma disabled_humidity_is_cached_but_not_exposed_witness :
  let w := run (constructor temperature_only) [InitialFetch unreachable_reply] in
  getServices (this w) = [AccessoryInformation; TemperatureSensor]
  /\ handlers (calls w) = [GetCurrentTemperature]
  /\ filter on_humidity (calls w) = []
  /\ humidity (accessoryState (this (step w (IntervalFetch readme_reply))))
     = JsNumber 38%float
  /\ filter on_humidity (calls (step w (IntervalFetch readme_reply))) = [].
Proof.
  destruct (disabled_humidity_is_cached_but_not_exposed temperature_only
              [InitialFetch unreachable_reply] eq_refl) as (S & G & P & C).
  split; [ exact S | ]. split; [ exact G | ]. split; [ exact P | ].
  apply (C (IntervalFetch readme_reply)
           {| temperature := JsNumber 25.8%float; humidity := JsNumber 38%float |}).
  - repeat constructor; cbn [In]; intros K; decompose [or] K;
      try discriminate; try contradiction.
  - exact (delivers_reading
             {| Axios.status := 200;
                Axios.data := JsObject [("temperature", JsNumber 25.8%float);
                                        ("humidity", JsNumber 38%float)] |}
             (JsNumber 25.8%float) (JsNumber 38%float)
             (or_introl (or_introl eq_refl)) eq_refl
             (or_introl (or_intror (or_introl eq_refl))) eq_refl).
Defined.

(** ** [updateAllStates] and the getters *)


(** C10.  A getter returns the field of the cache, writes one log line
    and changes nothing of [this]: both fields of [accessoryState] are
    after the call what they were before it. *)
Theorem getters_are_read_only (w : World) :
  this (snd (getCurrentTemperature w)) = this w
  /\ this (snd (getCurrentRelativeHumidity w)) = this w
  /\ fst (getCurrentTemperature w) = Fulfilled (temperature (accessoryState (this w)))
  /\ fst (getCurrentRelativeHumidity w) = Fulfilled (humidity (accessoryState (this w)))
  /\ calls (snd (getCurrentTemperature w)) = calls w
  /\ calls (snd (getCurrentRelativeHumidity w)) = calls w.
Proof. repeat split. Qed.

(** ** Beyond the cache: the rest of the class *)

(** A settled request changes nothing of [this] but [accessoryState]. *)
Lemma step_frame (w : World) (e : Event) (s : AccessoryState) :
  with_accessoryState (this (step w e)) s = with_accessoryState (this w) s.
Proof.
  rewrite step_this. destruct (delivered (reply_of e)); reflexivity.
Qed.

Lemma run_frame (w : World) (es : list Event) (s : AccessoryState) :
  with_accessoryState (this (run w es)) s = with_accessoryState (this w) s.
Proof.
  induction es as [| e es IH] using rev_ind; [ reflexivity | ].
  rewrite run_snoc, step_frame. exact IH.
Qed.

Lemma or_string_nonempty (a : option string) (b : string) :
  b <> "" -> or_string a b <> "".
Proof.
  intros Hb. destruct a as [[| c s] |]; cbn [or_string];
    [ exact Hb | discriminate | exact Hb ].
Qed.

Lemma or_number_truthy (a : option float) (b : float) :
  number_truthy b = true -> number_truthy (or_number a b) = true.
Proof.
  intros Hb. destruct a as [n |]; cbn [or_number]; [ | exact Hb ].
  destruct (number_truthy n) eqn:Hn; [ exact Hn | exact Hb ].
Qed.

(** The configuration is read once: whatever requests settle, the fields
    of [this] that come from the configuration are what the constructor
    made of it, the three optional strings and the two optional values
    with their defaults. *)
Theorem configuration_is_read_once (config : AccessoryConfig.t) (es : list Event) :
  let self := this (run (constructor config) es) in
  name self = AccessoryConfig.name config
  /\ url self = AccessoryConfig.url config
  /\ manufacturer self =
     or_string (AccessoryConfig.manufacturer config) "HttpTemperatureHumidity"
  /\ model self = or_string (AccessoryConfig.model config) "Default"
  /\ serial self = or_string (AccessoryConfig.serial config) "18981898"
  /\ disableHumidity self = or_boolean (AccessoryConfig.disableHumidity config) false
  /\ refresh_interval self = or_number (AccessoryConfig.refresh config) 30%float.
Proof.
  cbn zeta.
  pose proof (run_frame (constructor config) es zero_reading) as F.
  rewrite constructor_this in F. cbn [with_accessoryState] in F.
  destruct (this (run (constructor config) es)); cbn in F |- *.
  injection F as -> -> -> -> -> -> ->. repeat split.
Qed.

(** The strings given to the information service are never empty: an
    empty [manufacturer], [model] or [serial] in the configuration is
    replaced by the default like a missing one, and a non-empty one is
    passed on as it is. *)
Theorem information_strings_are_never_empty (config : AccessoryConfig.t) :
  let w := constructor config in
  (forall s c v, In (SetCharacteristic s c v) (calls w) -> v <> "")
  /\ (forall v, v <> "" ->
        (AccessoryConfig.manufacturer config = Some v ->
           In (SetCharacteristic AccessoryInformation Manufacturer v) (calls w))
        /\ (AccessoryConfig.model config = Some v ->
              In (SetCharacteristic AccessoryInformation Model v) (calls w))
        /\ (AccessoryConfig.serial config = Some v ->
              In (SetCharacteristic AccessoryInformation SerialNumber v) (calls w))).
Proof.
  cbn zeta. rewrite constructor_calls. cbn zeta. rewrite constructor_this.
  cbn [manufacturer model serial disableHumidity].
  split.
  - intros s c v H. cbn [In] in H. rewrite in_app_iff in H. cbn [In] in H.
    destruct H as [H | [H | H]]; [ discriminate H | | ].
    + destruct (negb _); cbn [In] in H; [ destruct H as [H | []] | destruct H ];
        discriminate H.
    + destruct H as [H | [H | [H | [H | []]]]]; try discriminate H;
        injection H as _ _ <-; apply or_string_nonempty; discriminate.
  - intros v Hv.
    assert (E : forall d, or_string (Some v) d = v).
    { intros d. destruct v; [ contradiction Hv; reflexivity | reflexivity ]. }
    repeat split; intros ->; rewrite E; right; apply in_or_app; right; cbn [In];
      auto.
Qed.

(** [refresh_interval] is never 0, -0 or [NaN], whatever the
    configuration says and whatever has happened since. *)
Theorem refresh_interval_is_never_falsy (config : AccessoryConfig.t) (es : list Event) :
  number_truthy (refresh_interval (this (run (constructor config) es))) = true.
Proof.
  rewrite run_refresh_interval, constructor_this. cbn [refresh_interval].
  apply or_number_truthy. reflexivity.
Qed.

(** Humidity is exposed all the way or not at all: the humidity service
    is in the list of [getServices] exactly when the constructor
    registered the humidity getter, and exactly when the configuration
    does not say [disableHumidity: true]; [false] counts like a missing
    key.  The information and temperature services head the list in
    either case. *)
Theorem humidity_is_exposed_consistently (config : AccessoryConfig.t) (es : list Event) :
  let w := run (constructor config) es in
  (In HumiditySensor (getServices (this w)) <->
   In GetCurrentRelativeHumidity (handlers (calls w)))
  /\ (In HumiditySensor (getServices (this w)) <->
      AccessoryConfig.disableHumidity config <> Some true)
  /\ firstn 2 (getServices (this w)) = [AccessoryInformation; TemperatureSensor]
  /\ In GetCurrentTemperature (handlers (calls w)).
Proof.
  cbn zeta. unfold getServices.
  rewrite run_handlers, run_disableHumidity, constructor_calls. cbn zeta.
  rewrite constructor_this. cbn [disableHumidity].
  destruct (AccessoryConfig.disableHumidity config) as [[|] |]; cbn;
    repeat split; try tauto; try discriminate;
    try (intros [H | [H | [H | []]]]; discriminate H);
    try (intros [H | [H | []]]; discriminate H);
    try (intros H; exfalso; apply H; reflexivity);
    try (intros [H | []]; discriminate H).
Qed.

(** A tick whose request delivers a reading pushes that reading to the
    host: the temperature first, then the humidity unless it is
    disabled, and nothing else. *)
Theorem successful_tick_pushes_the_reading
    (w : World) (reply : Settled Axios.AxiosResponse) (r : AccessoryState) :
  unique_keys reply ->
  Delivers reply r ->
  calls (step w (IntervalFetch reply)) =
  calls w
  ++ UpdateCharacteristic TemperatureSensor CurrentTemperature (temperature r)
     :: (if disableHumidity (this w) then []
         else [UpdateCharacteristic HumiditySensor CurrentRelativeHumidity
                 (humidity r)]).
Proof.
  intros U D. rewrite step_calls. unfold pushes.
  rewrite step_disableHumidity, step_accessoryState. cbn [reply_of].
  unfold delivered. rewrite (delivers_outcome _ _ U D).
  destruct (disableHumidity (this w)); reflexivity.
Qed.

Lemma successful_tick_pushes_the_reading_witness :
  calls (step (constructor living_room) (IntervalFetch readme_reply)) =
  calls (constructor living_room)
  ++ [UpdateCharacteristic TemperatureSensor CurrentTemperature (JsNumber 25.8%float);
      UpdateCharacteristic HumiditySensor CurrentRelativeHumidity (JsNumber 38%float)].
Proof.
  apply (successful_tick_pushes_the_reading (constructor living_room)
           readme_reply
           {| temperature := JsNumber 25.8%float; humidity := JsNumber 38%float |}).
  - repeat constructor; cbn [In]; intros K; decompose [or] K;
      try discriminate; try contradiction.
  - exact (delivers_reading
             {| Axios.status := 200;
                Axios.data := JsObject [("temperature", JsNumber 25.8%float);
                                        ("humidity", JsNumber 38%float)] |}
             (JsNumber 25.8%float) (JsNumber 38%float)
             (or_introl (or_introl eq_refl)) eq_refl
             (or_introl (or_intror (or_introl eq_refl))) eq_refl).
Defined.

(** The request the constructor sends warms the cache silently: settled,
    it leaves [this] exactly as a tick with the same reply would, and
    makes no call on the host, whatever the reply. *)
Theorem initial_fetch_updates_without_pushing
    (w : World) (reply : Settled Axios.AxiosResponse) :
  this (step w (InitialFetch reply)) = this (step w (IntervalFetch reply))
  /\ calls (step w (InitialFetch reply)) = calls w.
Proof.
  split.
  - rewrite !step_this. reflexivity.
  - rewrite step_calls. apply app_nil_r.
Qed.

Lemma step_log (w : World) (e : Event) :
  log (step w e) = log w ++ entries_of e.
Proof.
  unfold entries_of.
  destruct e as [reply | reply]; cbn [step reply_of is_interval].
  - rewrite updateAllStates_eq. destruct (outcome reply); reflexivity.
  - rewrite onInterval_eq; cbn [snd log]. rewrite updateAllStates_eq.
    destruct (outcome reply); cbn [snd log]; rewrite <- app_assoc; reflexivity.
Qed.

(** Every settled request leaves its mark in the log, once: a debug
    line with the reading when it delivered one, an info line with the
    message of the error that was caught when it did not; a tick adds
    its debug line after that.  Nothing else is written and nothing is
    removed. *)
Theorem log_records_every_request (w : World) (es : list Event) :
  log (run w es) = log w ++ flat_map entries_of es
  /\ (forall e, unique_keys (reply_of e) ->
        (forall r, Delivers (reply_of e) r ->
           entries_of e =
           reading_entry r :: (if is_interval e then [trigger_entry] else []))
        /\ (forall error, Catches (reply_of e) error ->
              entries_of e =
              error_entry error :: (if is_interval e then [trigger_entry] else []))).
Proof.
  split.
  - induction es as [| e es IH] using rev_ind.
    + cbn. symmetry. apply app_nil_r.
    + rewrite run_snoc, step_log, IH, flat_map_app. cbn [flat_map].
      rewrite app_nil_r, app_assoc. reflexivity.
  - intros e U. unfold entries_of. split.
    + intros r D. rewrite (delivers_outcome _ _ U D). reflexivity.
    + intros error C. rewrite (catches_outcome _ _ U C). reflexivity.
Qed.

Lemma pushed_app (c : Characteristic) (cs ds : list HostCall) :
  pushed c (cs ++ ds) = pushed c cs ++ pushed c ds.
Proof.
  induction cs as [| x cs IH]; [ reflexivity | ].
  destruct x as [ | | s c' v | ]; cbn [app pushed]; try exact IH.
  destruct (characteristic_eqb c c'); cbn [app]; rewrite IH; reflexivity.
Qed.

Lemma tick_prefixes_from_snoc (seen es : list Event) (e : Event) :
  tick_prefixes_from seen (es ++ [e]) =
  tick_prefixes_from seen es
  ++ (if is_interval e then [seen ++ es ++ [e]] else []).
Proof.
  revert seen. induction es as [| x es IH]; intros seen; cbn [app tick_prefixes_from].
  - rewrite app_nil_r. reflexivity.
  - rewrite IH, <- !app_assoc. reflexivity.
Qed.

Lemma constructor_pushed (config : AccessoryConfig.t) (c : Characteristic) :
  pushed c (calls (constructor config)) = [].
Proof.
  rewrite constructor_calls. cbn zeta.
  destruct (negb (disableHumidity (this (constructor config)))); reflexivity.
Qed.

Lemma constructor_run_accessoryState (config : AccessoryConfig.t) (es : list Event) :
  accessoryState (this (run (constructor config) es)) = last_delivered es.
Proof.
  rewrite run_accessoryState, constructor_this. unfold last_delivered.
  destruct (find succeeded (rev es)); reflexivity.
Qed.

(** What the host is pushed, tick by tick: at every tick that settles,
    failed or not, the temperature of the last reading delivered up to
    and including that tick (0 when there is none yet); the same for
    the humidity, and no humidity at all when it is disabled.  So a
    tick that delivers a reading pushes the temperature of that
    reading. *)
Theorem pushes_follow_the_cache (config : AccessoryConfig.t) (es : list Event) :
  let w := run (constructor config) es in
  pushed CurrentTemperature (calls w) =
  map (fun p => temperature (last_delivered p)) (tick_prefixes es)
  /\ pushed CurrentRelativeHumidity (calls w) =
     (if disableHumidity (this w) then []
      else map (fun p => humidity (last_delivered p)) (tick_prefixes es))
  /\ (forall reply r,
        unique_keys reply -> Delivers reply r ->
        pushed CurrentTemperature (calls (step w (IntervalFetch reply))) =
        pushed CurrentTemperature (calls w) ++ [temperature r]).
Proof.
  cbn zeta. unfold tick_prefixes. rewrite run_disableHumidity.
  assert (T : forall es',
             pushed CurrentTemperature (calls (run (constructor config) es')) =
             map (fun p => temperature (last_delivered p)) (tick_prefixes_from [] es')
             /\ pushed CurrentRelativeHumidity (calls (run (constructor config) es')) =
                (if disableHumidity (this (constructor config)) then []
                 else map (fun p => humidity (last_delivered p))
                        (tick_prefixes_from [] es'))).
  { induction es' as [| e es' [IHt IHh]] using rev_ind.
    - cbn [run fold_left]. rewrite !constructor_pushed.
      destruct (disableHumidity (this (constructor config))); split; reflexivity.
    - rewrite run_snoc, step_calls, !pushed_app, IHt, IHh, tick_prefixes_from_snoc.
      assert (C : accessoryState (this (step (run (constructor config) es') e))
                  = last_delivered (es' ++ [e])).
      { rewrite <- run_snoc. apply constructor_run_accessoryState. }
      destruct e as [reply | reply]; cbn [is_interval app].
      + rewrite !map_app, !app_nil_r. cbn [map pushed].
        destruct (disableHumidity (this (constructor config))); split; reflexivity.
      + unfold pushes. rewrite step_disableHumidity, run_disableHumidity, C.
        rewrite !map_app. cbn [map].
        destruct (disableHumidity (this (constructor config))); split; reflexivity. }
  destruct (T es) as [Ht Hh]. split; [ exact Ht | ]. split; [ exact Hh | ].
  intros reply r U D. rewrite step_calls, pushed_app. f_equal.
  unfold pushes. rewrite step_accessoryState. cbn [reply_of]. unfold delivered.
  rewrite (delivers_outcome _ _ U D).
  destruct (negb (disableHumidity (this (step (run (constructor config) es)
                                           (IntervalFetch reply))))); reflexivity.
Qed.

(** One push of the temperature per tick that has settled, whether its
    request failed or not, and none for the constructor's request; the
    same number of humidity pushes, or none when humidity is disabled. *)
Theorem one_push_per_tick (config : AccessoryConfig.t) (es : list Event) :
  let w := run (constructor config) es in
  length (pushed CurrentTemperature (calls w)) = length (filter is_interval es)
  /\ length (pushed CurrentRelativeHumidity (calls w)) =
     if disableHumidity (this w) then 0 else length (filter is_interval es).
Proof.
  cbn zeta. rewrite run_disableHumidity.
  induction es as [| e es [IHt IHh]] using rev_ind.
  - cbn [run fold_left]. rewrite !constructor_pushed.
    destruct (disableHumidity (this (constructor config))); split; reflexivity.
  - rewrite run_snoc, step_calls, !pushed_app, !length_app, IHt, IHh, filter_app,
      length_app.
    destruct e as [reply | reply]; cbn [filter is_interval length pushed].
    + rewrite !Nat.add_0_r.
      destruct (disableHumidity (this (constructor config))); split; reflexivity.
    + unfold pushes. rewrite step_disableHumidity, run_disableHumidity.
      destruct (disableHumidity (this (constructor config))); split; reflexivity.
Qed.

(** ** What the response may hold *)

(** A fulfilled request whose data is [null] or [undefined] is a
    failure of the update, not of the fetch: [callServer] returns the
    data, the [then] callback throws on the first property it reads,
    and [updateAllStates] resolves to [false] with [this] untouched, no
    call on the host and one info line in the log. *)
Theorem nullish_data_is_logged_and_dropped
    (w : World) (response : Axios.AxiosResponse) :
  Axios.data response = JsNull \/ Axios.data response = JsUndefined ->
  fst (callServer (Fulfilled response) w) = Fulfilled (Axios.data response)
  /\ exists err,
       updateAllStates (Fulfilled response) w =
       (Fulfilled false,
        {| this := this w; log := log w ++ [error_entry err]; calls := calls w |}).
Proof.
  intros H. split; [ reflexivity | ].
  rewrite updateAllStates_eq. unfold outcome.
  destruct H as [-> | ->]; cbn [get_property]; eexists; reflexivity.
Qed.

Lemma nullish_data_is_logged_and_dropped_witness :
  let w := run (constructor living_room) [InitialFetch readme_reply] in
  fst (callServer (fulfilled_with JsNull) w) = Fulfilled JsNull
  /\ exists err,
       updateAllStates (fulfilled_with JsNull) w =
       (Fulfilled false,
        {| this := this w; log := log w ++ [error_entry err]; calls := calls w |}).
Proof.
  apply (nullish_data_is_logged_and_dropped
           (run (constructor living_room) [InitialFetch readme_reply])
           {| Axios.status := 200; Axios.data := JsNull |}).
  left. reflexivity.
Defined.

(** A response object is taken as it comes: when what it has under
    [temperature] and under [humidity] converts to a string, a number
    or not, each field of the cache becomes the property of that name,
    and [undefined] when the object has no such property.  The value
    the cache held for a missing property is not kept. *)
Theorem object_is_stored_unchecked
    (w : World) (e : Event) (response : Axios.AxiosResponse)
    (props : list (string * JsValue)) :
  let t := match lookup "temperature" props with
           | Some v => v
           | None => JsUndefined
           end in
  let h := match lookup "humidity" props with
           | Some v => v
           | None => JsUndefined
           end in
  reply_of e = Fulfilled response ->
  Axios.data response = JsObject props ->
  printable t = true ->
  printable h = true ->
  accessoryState (this (step w e)) = {| temperature := t; humidity := h |}.
Proof.
  cbn zeta. intros Hreply Hdata Pt Ph. rewrite step_accessoryState.
  unfold delivered, outcome. rewrite Hreply, Hdata. cbn [get_property].
  rewrite !shown_printable, Pt, Ph. reflexivity.
Qed.

Lemma object_is_stored_unchecked_witness :
  accessoryState
    (this (step (run (constructor living_room) [InitialFetch readme_reply])
             (IntervalFetch
                (fulfilled_with (JsObject [("temperature", JsString "21.5")]))))) =
  {| temperature := JsString "21.5"; humidity := JsUndefined |}.
Proof.
  exact (object_is_stored_unchecked
           (run (constructor living_room) [InitialFetch readme_reply])
           (IntervalFetch (fulfilled_with (JsObject [("temperature", JsString "21.5")])))
           {| Axios.status := 200;
              Axios.data := JsObject [("temperature", JsString "21.5")] |}
           [("temperature", JsString "21.5")] eq_refl eq_refl eq_refl eq_refl).
Defined.

(** A response with a temperature or a humidity that has no conversion
    to a string, such as [{"toString": null}], never reaches the cache:
    building the debug line throws before either field is assigned, so
    [updateAllStates] resolves to [false], leaves [this] and the host
    alone and logs the [TypeError], even when the other property is a
    sound number. *)
Theorem unprintable_property_is_logged_and_dropped
    (w : World) (response : Axios.AxiosResponse) (t h : JsValue) :
  get_property (Axios.data response) "temperature" = Fulfilled t ->
  get_property (Axios.data response) "humidity" = Fulfilled h ->
  printable t && printable h = false ->
  updateAllStates (Fulfilled response) w =
  (Fulfilled false,
   {| this := this w;
      log := log w ++ [error_entry
                         (TypeError "Cannot convert object to primitive value")];
      calls := calls w |}).
Proof.
  intros Ht Hh P. rewrite updateAllStates_eq. unfold outcome.
  rewrite Ht, Hh, !shown_printable.
  destruct (printable t); [ | reflexivity ].
  destruct (printable h); [ discriminate P | reflexivity ].
Qed.

Lemma unprintable_property_is_logged_and_dropped_witness :
  let w := run (constructor living_room) [InitialFetch readme_reply] in
  updateAllStates (fulfilled_with unprintable_data) w =
  (Fulfilled false,
   {| this := this w;
      log := log w ++ [error_entry
                         (TypeError "Cannot convert object to primitive value")];
      calls := calls w |}).
Proof.
  exact (unprintable_property_is_logged_and_dropped
           (run (constructor living_room) [InitialFetch readme_reply])
           {| Axios.status := 200; Axios.data := unprintable_data |}
           (JsObject [("toString", JsNull)]) (JsNumber 38%float)
           eq_refl eq_refl eq_refl).
Defined.

(** A response that is a boolean, a number, a string or an array counts
    as a reading: [updateAllStates] resolves to [true], logs no error,
    and both fields of the cache are [undefined] afterwards. *)
Theorem data_without_properties_clears_the_cache
    (w : World) (response : Axios.AxiosResponse) :
  not_an_object (Axios.data response) = true ->
  fst (updateAllStates (Fulfilled response) w) = Fulfilled true
  /\ accessoryState (this (snd (updateAllStates (Fulfilled response) w))) =
     {| temperature := JsUndefined; humidity := JsUndefined |}
  /\ log (snd (updateAllStates (Fulfilled response) w)) =
     log w ++ [reading_entry {| temperature := JsUndefined; humidity := JsUndefined |}].
Proof.
  intros H. rewrite updateAllStates_eq. unfold outcome.
  destruct (Axios.data response); try discriminate H; repeat split.
Qed.

Lemma data_without_properties_clears_the_cache_witness :
  let w := run (constructor living_room) [InitialFetch readme_reply] in
  fst (updateAllStates (fulfilled_with (JsNumber 21.5%float)) w) = Fulfilled true
  /\ accessoryState (this (snd (updateAllStates (fulfilled_with (JsNumber 21.5%float)) w))) =
     {| temperature := JsUndefined; humidity := JsUndefined |}
  /\ log (snd (updateAllStates (fulfilled_with (JsNumber 21.5%float)) w)) =
     log w ++ [reading_entry {| temperature := JsUndefined; humidity := JsUndefined |}].
Proof.
  apply (data_without_properties_clears_the_cache
           (run (constructor living_room) [InitialFetch readme_reply])
           {| Axios.status := 200; Axios.data := JsNumber 21.5%float |}).
  reflexivity.
Defined.

(** ** Requests and host calls together *)

Lemma session_snoc (w : World) (acts : list Activity) (a : Activity) :
  session w (acts ++ [a]) = act (session w acts) a.
Proof. unfold session. rewrite fold_left_app. reflexivity. Qed.

Lemma settled_snoc (acts : list Activity) (a : Activity) :
  settled (acts ++ [a]) =
  settled acts ++ match a with Settles e => [e] | _ => [] end.
Proof.
  induction acts as [| x acts IH].
  - destruct a; reflexivity.
  - destruct x; cbn [app settled]; rewrite IH; reflexivity.
Qed.

(** The host reading and identifying the accessory changes nothing but
    the log: however getter and [identify] calls are interleaved with
    the requests that settle, [this] and the calls made on the host are
    what the settled requests alone would have given. *)
Theorem host_calls_do_not_interfere (w : World) (acts : list Activity) :
  this (session w acts) = this (run w (settled acts))
  /\ calls (session w acts) = calls (run w (settled acts)).
Proof.
  induction acts as [| a acts [IHt IHc]] using rev_ind; [ split; reflexivity | ].
  rewrite session_snoc, settled_snoc.
  destruct a as [e | | |]; cbn [act];
    try (rewrite app_nil_r; split; [ exact IHt | exact IHc ]).
  rewrite run_snoc.
  assert (T : this (step (session w acts) e) = this (step (run w (settled acts)) e)).
  { rewrite !step_this, IHt. reflexivity. }
  split; [ exact T | ].
  rewrite !step_calls, IHc, T. reflexivity.
Qed.

(** Failed requests leave no trace in [this]: dropping them from the
    sequence gives the same fields, cache included. *)
Theorem failures_leave_no_trace_in_state (w : World) (es : list Event) :
  this (run w es) = this (run w (filter succeeded es)).
Proof.
  induction es as [| e es IH] using rev_ind; [ reflexivity | ].
  rewrite filter_app, run_snoc. cbn [filter].
  destruct (succeeded e) eqn:S.
  - rewrite run_snoc, !step_this, IH. reflexivity.
  - rewrite app_nil_r, step_this, <- IH. unfold succeeded in S.
    destruct (delivered (reply_of e)); [ discriminate S | reflexivity ].
Qed.

(** ** The calls on the host *)

Lemma pushes_well_wired (self : Fields) : forallb well_wired (pushes self) = true.
Proof. unfold pushes. destruct (disableHumidity self); reflexivity. Qed.

Lemma constructor_run_well_wired (config : AccessoryConfig.t) (es : list Event) :
  forallb well_wired (calls (run (constructor config) es)) = true.
Proof.
  induction es as [| e es IH] using rev_ind.
  - cbn [run fold_left]. rewrite constructor_calls. cbn zeta.
    destruct (negb (disableHumidity (this (constructor config)))); reflexivity.
  - rewrite run_snoc, step_calls, forallb_app, IH.
    destruct e; [ reflexivity | apply pushes_well_wired ].
Qed.

(** Every call the accessory ever makes on the host has its service and
    characteristic matched: a getter is registered on the
    characteristic of its own sensor, values are pushed on the
    characteristic of the sensor they belong to, and strings are set on
    the information service only. *)
Theorem calls_are_well_wired
    (config : AccessoryConfig.t) (es : list Event) (c : HostCall) :
  In c (calls (run (constructor config) es)) ->
  match c with
  | OnGet s ch h =>
      (s = TemperatureSensor /\ ch = CurrentTemperature /\ h = GetCurrentTemperature)
      \/ (s = HumiditySensor /\ ch = CurrentRelativeHumidity
          /\ h = GetCurrentRelativeHumidity)
  | SetCharacteristic s ch _ =>
      s = AccessoryInformation
      /\ (ch = Manufacturer \/ ch = Model \/ ch = SerialNumber)
  | UpdateCharacteristic s ch _ =>
      (s = TemperatureSensor /\ ch = CurrentTemperature)
      \/ (s = HumiditySensor /\ ch = CurrentRelativeHumidity)
  | SetInterval _ => True
  end.
Proof.
  intros H.
  pose proof (constructor_run_well_wired config es) as W.
  rewrite forallb_forall in W. specialize (W c H).
  destruct c as [s ch h | s ch v | s ch v | ms]; [ | | | exact I ];
    destruct s, ch; try discriminate W; try destruct h; try discriminate W;
    auto 6.
Qed.

Lemma calls_are_well_wired_witness :
  (TemperatureSensor = TemperatureSensor /\ CurrentTemperature = CurrentTemperature)
  \/ (TemperatureSensor = HumiditySensor
      /\ CurrentTemperature = CurrentRelativeHumidity).
Proof.
  apply (calls_are_well_wired living_room [IntervalFetch server_error_reply]
           (UpdateCharacteristic TemperatureSensor CurrentTemperature
              (JsNumber 0%float))).
  vm_compute. tauto.
Defined.

(** A getter the host was given answers for the characteristic it was
    registered on: invoked in any state, it returns the field of the
    cache that characteristic shows. *)
Theorem registered_getter_answers_its_characteristic
    (config : AccessoryConfig.t) (es : list Event)
    (s : Service) (ch : Characteristic) (h : Handler) (w : World) :
  In (OnGet s ch h) (calls (run (constructor config) es)) ->
  shown_by ch (accessoryState (this w)) =
  match fst (invoke h w) with
  | Fulfilled v => Some v
  | Rejected _ => None
  end.
Proof.
  intros H.
  pose proof (constructor_run_well_wired config es) as W.
  rewrite forallb_forall in W. specialize (W _ H).
  destruct s, ch, h; try discriminate W; reflexivity.
Qed.

Lemma registered_getter_answers_its_characteristic_witness :
  let w := run (constructor living_room) [IntervalFetch readme_reply] in
  shown_by CurrentRelativeHumidity (accessoryState (this w)) =
  match fst (invoke GetCurrentRelativeHumidity w) with
  | Fulfilled v => Some v
  | Rejected _ => None
  end.
Proof.
  apply (registered_getter_answers_its_characteristic living_room []
           HumiditySensor CurrentRelativeHumidity GetCurrentRelativeHumidity
           (run (constructor living_room) [IntervalFetch readme_reply])).
  vm_compute. tauto.
Defined.

(** Whenever the host asks, it is told the last reading delivered so
    far: after the constructor and any interleaving of settled requests
    with getter and [identify] calls, [getCurrentTemperature] and
    [getCurrentRelativeHumidity] return the fields of the reading of the
    last request that delivered one, and 0 when none has; right after a
    request that delivers a reading they return the fields of that
    reading. *)
Theorem host_reads_the_last_delivered_reading
    (config : AccessoryConfig.t) (acts : list Activity) :
  let w := session (constructor config) acts in
  fst (invoke GetCurrentTemperature w) =
  Fulfilled (temperature (last_delivered (settled acts)))
  /\ fst (invoke GetCurrentRelativeHumidity w) =
     Fulfilled (humidity (last_delivered (settled acts)))
  /\ (forall e r,
        unique_keys (reply_of e) -> Delivers (reply_of e) r ->
        fst (invoke GetCurrentTemperature (act w (Settles e))) =
        Fulfilled (temperature r)
        /\ fst (invoke GetCurrentRelativeHumidity (act w (Settles e))) =
           Fulfilled (humidity r)).
Proof.
  cbn zeta. cbn [invoke act].
  assert (T : this (session (constructor config) acts)
              = this (run (constructor config) (settled acts))).
  { induction acts as [| a acts IH] using rev_ind; [ reflexivity | ].
    rewrite session_snoc, settled_snoc.
    destruct a as [e | | |]; cbn [act]; rewrite ?app_nil_r; try exact IH.
    rewrite run_snoc, !step_this, IH. reflexivity. }
  repeat apply conj.
  - rewrite getCurrentTemperature_eq. cbn [fst].
    rewrite T, constructor_run_accessoryState. reflexivity.
  - rewrite getCurrentRelativeHumidity_eq. cbn [fst].
    rewrite T, constructor_run_accessoryState. reflexivity.
  - intros e r U D.
    rewrite getCurrentTemperature_eq, getCurrentRelativeHumidity_eq. cbn [fst].
    rewrite step_accessoryState. unfold delivered.
    rewrite (delivers_outcome _ _ U D). split; reflexivity.
Qed.
